(** * personalwebapi: the Telegram relay of [app.py]

    A shallow embedding of the FastAPI application in [src/app.py]
    (the [/health] and [/send-message] handlers and the import-time
    construction of the bot), followed by the properties that the
    specification states about it.

    Python [str] values are sequences of Unicode code points, exceptions are
    values of the type [exn], and a handler is a computation in a small
    monad that threads the trace of its effects (log records, client calls)
    next to its result or the exception it raised.  Everything that lives
    outside the repository (the clock, the environment variables, the
    python-telegram-bot client, the rendering of a framework exception) is a
    field of the record [World]. *)

From Stdlib Require Import List NArith ZArith Bool Ascii String Lia.
Import ListNotations.

(** ** Python strings *)

Module PyStr.

(** A [str] is a list of code points; [len] counts code points. *)
Definition pystr := list N.

(** An ASCII literal of the source text. *)
Definition py (s : string) : pystr := map N_of_ascii (list_ascii_of_string s).

(** The newline escape of the source literals. *)
Definition nl : pystr := [10%N].

Definition len (s : pystr) : Z := Z.of_nat (List.length s).

(** Truthiness of a [str]: non-empty. *)
Definition truthy (s : pystr) : bool :=
  match s with [] => false | _ :: _ => true end.

(** [all(iterable)] over a list of strings. *)
Definition all (l : list pystr) : bool := forallb truthy l.

(** [str.isspace] on one code point (CPython's [_PyUnicode_IsWhitespace]). *)
Definition isspace (c : N) : bool :=
  ((9 <=? c) && (c <=? 13) || (28 <=? c) && (c <=? 32) || (c =? 133)
   || (c =? 160) || (c =? 5760) || (8192 <=? c) && (c <=? 8202)
   || (c =? 8232) || (c =? 8233) || (c =? 8239) || (c =? 8287)
   || (c =? 12288))%N.

Fixpoint lstrip (s : pystr) : pystr :=
  match s with
  | [] => []
  | c :: s' => if isspace c then lstrip s' else s
  end.

Definition rstrip (s : pystr) : pystr := rev (lstrip (rev s)).

(** [s.strip()] with no argument. *)
Definition strip (s : pystr) : pystr := rstrip (lstrip s).

Fixpoint startswith (p s : pystr) : bool :=
  match p, s with
  | [], _ => true
  | _ :: _, [] => false
  | a :: p', b :: s' => (a =? b)%N && startswith p' s'
  end.

(** [sub in s] for strings: substring search. *)
Fixpoint str_in (sub s : pystr) : bool :=
  startswith sub s
  || match s with
     | [] => false
     | _ :: s' => str_in sub s'
     end.

(** [s.split(sep)] for a separator of one character. *)
Fixpoint split (sep : N) (s : pystr) : list pystr :=
  match s with
  | [] => [[]]
  | c :: s' =>
      if (c =? sep)%N then [] :: split sep s'
      else match split sep s' with
           | [] => [[c]]
           | w :: ws => (c :: w) :: ws
           end
  end.

(** [%0wd] for a value that fits in [w] digits. *)
Fixpoint zpad (w : nat) (n : N) : pystr :=
  match w with
  | O => []
  | S w' => zpad w' (n / 10) ++ [(48 + n mod 10)%N]
  end.

(** [f"{x}"] of an optional string ([None] prints as its name). *)
Definition format_opt (o : option pystr) : pystr :=
  match o with Some s => s | None => py "None" end.

Definition at_sign : N := 64.
Definition dot : N := 46.

End PyStr.
Import PyStr.

(** ** Time *)

(** An aware [datetime] in UTC, as [datetime.now(timezone.utc)] returns it. *)
Record datetime := {
  year : N; month : N; day : N;
  hour : N; minute : N; second : N;
  microsecond : N
}.

(** The part of the ISO rendering down to the seconds. *)
Definition iso_seconds (d : datetime) : pystr :=
  zpad 4 (year d) ++ py "-" ++ zpad 2 (month d) ++ py "-" ++ zpad 2 (day d)
  ++ py "T" ++ zpad 2 (hour d) ++ py ":" ++ zpad 2 (minute d) ++ py ":"
  ++ zpad 2 (second d).

(** The fraction, printed only when the microseconds are not zero. *)
Definition iso_fraction (d : datetime) : pystr :=
  if (microsecond d =? 0)%N then [] else py "." ++ zpad 6 (microsecond d).

(** [d.isoformat()] of an aware UTC datetime. *)
Definition isoformat (d : datetime) : pystr :=
  iso_seconds d ++ iso_fraction d ++ py "+00:00".

(** ** Exceptions, effects and the handler monad *)

(** The exceptions ([Exception] subclasses) that the handlers meet. *)
Inductive exn :=
| HTTPException (status_code : Z) (detail : pystr)
| TelegramError (message : pystr)
| PyException (cls : string) (msg : pystr).

Inductive level := DEBUG | INFO | ERROR.

(** The bot object: what its constructor was given. *)
Record Bot := { token : option pystr; client : bool }.

(** Observable effects of a handler, in the order they happen. *)
Inductive event :=
| Log (lv : level) (msg : pystr)
| AsyncClient_enter (timeout : Z)
| AsyncClient_exit
| Bot_construct (b : Bot)
| Bot_send (b : Bot) (chat_id : option pystr) (text : pystr)
           (parse_mode : pystr) (disable_notification : bool).

(** A computation: the trace it left, and the exception it raised or the
    value it returned. *)
Definition M (A : Type) : Type := (list event * (exn + A))%type.

Definition ret {A} (a : A) : M A := ([], inr a).
Definition raise {A} (e : exn) : M A := ([], inl e).
Definition emit (ev : event) : M unit := ([ev], inr tt).

Definition bind {A B} (m : M A) (k : A -> M B) : M B :=
  match m with
  | (t, inl e) => (t, inl e)
  | (t, inr a) => let (t', r) := k a in (t ++ t', r)
  end.

Notation "x <- c ;; k" := (bind c (fun x => k))
  (at level 61, c at next level, right associativity).
Notation "c ;; k" := (bind c (fun _ => k))
  (at level 61, right associativity).

(** [try: body except ...: handler]; the handler returns [None] for an
    exception that its [except] clause does not match. *)
Definition try_except {A} (body : M A) (handler : exn -> option (M A)) : M A :=
  match body with
  | (t, inl e) =>
      match handler e with
      | Some h => let (t', r) := h in (t ++ t', r)
      | None => (t, inl e)
      end
  | (t, inr a) => (t, inr a)
  end.

(** [async with httpx.AsyncClient(timeout=...) as client: body]; the client
    is closed on every way out of the body. *)
Definition async_with_client {A} (timeout : Z) (body : M A) : M A :=
  let (t, r) := body in (AsyncClient_enter timeout :: t ++ [AsyncClient_exit], r).

(** [l[i]] for a non-negative index. *)
Definition getitem {A} (l : list A) (i : nat) : M A :=
  match nth_error l i with
  | Some x => ret x
  | None => raise (PyException "IndexError" (py "list index out of range"))
  end.

(** ** The world outside the repository *)

Record World := {
  (** [os.getenv("TELEGRAM_BOT_TOKEN")] and [os.getenv("TELEGRAM_CHAT_ID")] *)
  getenv_TELEGRAM_BOT_TOKEN : option pystr;
  getenv_TELEGRAM_CHAT_ID : option pystr;
  (** [datetime.now(timezone.utc)] *)
  utcnow : datetime;
  (** [Bot(token=..., [client=...])]: the exception it raises, if any *)
  Bot_init : Bot -> option exn;
  (** [await bot.send_message(...)]: the exception it raises, if any *)
  Bot_send_message : Bot -> option pystr -> pystr -> pystr -> bool -> option exn;
  (** [str(e)] of a framework [HTTPException] *)
  HTTPException_str : Z -> pystr -> pystr
}.

(** [str(e)]: a [TelegramError] prints its message. *)
Definition str_exn (W : World) (e : exn) : pystr :=
  match e with
  | HTTPException s d => HTTPException_str W s d
  | TelegramError m => m
  | PyException _ m => m
  end.

(** ** Values and responses *)

Inductive value := VStr (s : pystr) | VBool (b : bool).

(** A [dict] literal with string keys, in insertion order. *)
Definition dict := list (pystr * value).

Inductive http_body := JSON (d : dict) | Text (s : pystr).

Record http_response := { status : Z; body : http_body }.

(** What FastAPI sends for the outcome of a path operation. *)
Definition respond (r : exn + dict) : http_response :=
  match r with
  | inr d => {| status := 200; body := JSON d |}
  | inl (HTTPException s d) =>
      {| status := s; body := JSON [(py "detail", VStr d)] |}
  | inl _ => {| status := 500; body := Text (py "Internal Server Error") |}
  end.

(** ** The application *)

Record MessageData := { name : pystr; email : pystr; message : pystr }.

Section App.

Variable W : World.

Definition TELEGRAM_BOT_TOKEN : option pystr := getenv_TELEGRAM_BOT_TOKEN W.
Definition TELEGRAM_CHAT_ID : option pystr := getenv_TELEGRAM_CHAT_ID W.

(** [Bot(...)]: the constructor call and its outcome. *)
Definition new_Bot (b : Bot) : M Bot :=
  emit (Bot_construct b) ;;
  match Bot_init W b with
  | Some e => raise e
  | None => ret b
  end.

(** [await bot.send_message(chat_id=, text=, parse_mode=, disable_notification=)] *)
Definition bot_send_message (b : Bot) (chat_id : option pystr) (text : pystr)
    (parse_mode : pystr) (disable_notification : bool) : M unit :=
  emit (Bot_send b chat_id text parse_mode disable_notification) ;;
  match Bot_send_message W b chat_id text parse_mode disable_notification with
  | Some e => raise e
  | None => ret tt
  end.


(** [GET /health] *)
Definition health_check : M dict :=
  ret [ (py "status", VStr (py "healthy"));
        (py "message", VStr (py "Telegram backend is running"));
        (py "timestamp", VStr (isoformat (utcnow W) ++ py " UTC")) ].

(** The f-string of lines 73-83. *)
Definition telegram_message (timestamp name email message : pystr) : pystr :=
  py "*New Message*" ++ nl
  ++ py "_Received on: " ++ timestamp ++ py "_" ++ nl
  ++ py "---" ++ nl
  ++ py "*Sender Details:*" ++ nl
  ++ py "- *Name:* " ++ name ++ nl
  ++ py "- *Email:* " ++ email ++ nl
  ++ py "---" ++ nl
  ++ py "*Message:*" ++ nl
  ++ message.

(** The body of the outer [try] of [send_message], lines 61-99. *)
Definition send_message_try (data : MessageData) : M dict :=
  let name := strip (name data) in
  let email := strip (email data) in
  let message := strip (message data) in
  if negb (all [name; email; message]) then
    raise (HTTPException 400 (py "All fields must not be empty"))
  else if (len message >? 4096)%Z then
    raise (HTTPException 400 (py "Message exceeds 4096 character limit"))
  else
    bad_email <- (if negb (str_in (py "@") email) then ret true
                  else domain <- getitem (split at_sign email) 1 ;;
                       ret (negb (str_in (py ".") domain))) ;;
    if (bad_email : bool) then
      raise (HTTPException 400 (py "Invalid email format"))
    else
      iso <- getitem (split dot (isoformat (utcnow W))) 0 ;;
      let timestamp := iso ++ py " UTC" in
      let telegram_message := telegram_message timestamp name email message in
      emit (Log DEBUG (py "Sending message to chat_id: "
                       ++ format_opt TELEGRAM_CHAT_ID)) ;;
      async_with_client 30
        (bot <- new_Bot {| token := TELEGRAM_BOT_TOKEN; client := true |} ;;
         try_except
           (bot_send_message bot TELEGRAM_CHAT_ID telegram_message
                             (py "Markdown") true ;;
            emit (Log INFO (py "Message sent successfully")) ;;
            ret [ (py "success", VBool true);
                  (py "message", VStr (py "Message sent to Telegram")) ])
           (fun e =>
              match e with
              | TelegramError _ =>
                  Some (emit (Log ERROR (py "TelegramError: " ++ str_exn W e)) ;;
                        raise (HTTPException 500
                                 (py "Failed to send message: " ++ str_exn W e)))
              | _ => None
              end)).

(** [POST /send-message]: the body under [except Exception as e]. *)
Definition send_message (data : MessageData) : M dict :=
  try_except (send_message_try data)
    (fun e =>
       Some (emit (Log ERROR (py "Unexpected error: " ++ str_exn W e)) ;;
             raise (HTTPException 500 (py "Server error: " ++ str_exn W e)))).

End App.



(** ** Concrete worlds *)

(** Starlette's [HTTPException.__str__]: [f"{status_code}: {detail}"], for
    the three-digit status codes. *)
Definition starlette_str (s : Z) (d : pystr) : pystr :=
  zpad 3 (Z.to_N s) ++ py ": " ++ d.

(** A stand-in for the constructor of the bot: it refuses a missing or empty
    token, with the message of python-telegram-bot's [InvalidToken], and it
    takes the [client] argument of line 87.  (The constructor of the library
    itself has no such parameter: see [no_client_kwarg_world].) *)
Definition ptb_Bot_init (b : Bot) : option exn :=
  match token b with
  | None | Some [] =>
      Some (TelegramError
              (py "You must pass the token you received from https://t.me/Botfather!"))
  | Some (_ :: _) => None
  end.

Definition noon : datetime :=
  {| year := 2024; month := 1; day := 1; hour := 12; minute := 0; second := 0;
     microsecond := 123456 |}.

Definition noon_later : datetime :=
  {| year := 2024; month := 1; day := 1; hour := 12; minute := 0; second := 0;
     microsecond := 654321 |}.

(** A configured deployment whose client delivers every message. *)
Definition ok_world : World :=
  {| getenv_TELEGRAM_BOT_TOKEN := Some (py "123:abc");
     getenv_TELEGRAM_CHAT_ID := Some (py "42");
     utcnow := noon;
     Bot_init := ptb_Bot_init;
     Bot_send_message := fun _ _ _ _ _ => None;
     HTTPException_str := starlette_str |}.

(** The same deployment with a client whose every delivery fails. *)
Definition failing_world (detail : pystr) : World :=
  {| getenv_TELEGRAM_BOT_TOKEN := Some (py "123:abc");
     getenv_TELEGRAM_CHAT_ID := Some (py "42");
     utcnow := noon;
     Bot_init := ptb_Bot_init;
     Bot_send_message := fun _ _ _ _ _ => Some (TelegramError detail);
     HTTPException_str := starlette_str |}.


Definition hello : MessageData :=
  {| name := py " Ada "; email := py "ada@example.org"; message := py "Hello" |}.

Definition blank_name : MessageData :=
  {| name := py "   "; email := py "ada@example.org"; message := py "Hello" |}.

Definition no_at : MessageData :=
  {| name := py "Ada"; email := py "ada.example.org"; message := py "Hello" |}.

Definition too_long : MessageData :=
  {| name := py "Ada"; email := py "not-an-email";
     message := repeat 97%N 4097 |}.

(** ** The validation rules, as the handler tests them *)

Section Rules.

Variable data : MessageData.

(** Line 65: [all([name, email, message])]. *)
Definition fields_present : bool :=
  all [strip (name data); strip (email data); strip (message data)].

(** Line 67, negated: [len(message) > 4096] is false. *)
Definition within_limit : bool :=
  negb (len (strip (message data)) >? 4096)%Z.

(** Line 69, negated: ['@' in email and '.' in email.split('@')[1]]. *)
Definition email_accepted : bool :=
  str_in (py "@") (strip (email data))
  && match nth_error (split at_sign (strip (email data))) 1 with
     | Some domain => str_in (py ".") domain
     | None => false
     end.

(** A submission that passes the three rules. *)
Definition valid : bool := fields_present && within_limit && email_accepted.

End Rules.

(** What a valid submission makes the handler send, and to whom. *)
Definition timestamp_of (d : datetime) : pystr :=
  (iso_seconds d ++ (if (microsecond d =? 0)%N then py "+00:00" else []))
  ++ py " UTC".

Definition notification (W : World) (data : MessageData) : pystr :=
  telegram_message (timestamp_of (utcnow W))
    (strip (name data)) (strip (email data)) (strip (message data)).

Definition request_bot (W : World) : Bot :=
  {| token := TELEGRAM_BOT_TOKEN W; client := true |}.

(** The outcome of the delivery call that a valid submission leads to. *)
Definition delivery (W : World) (data : MessageData) : option exn :=
  Bot_send_message W (request_bot W) (TELEGRAM_CHAT_ID W)
    (notification W data) (py "Markdown") true.

Definition success_body : dict :=
  [ (py "success", VBool true);
    (py "message", VStr (py "Message sent to Telegram")) ].

(** The events that touch the messaging client or its transport. *)
Definition touches_client (ev : event) : bool :=
  match ev with
  | Log _ _ => false
  | _ => true
  end.

Definition is_send (ev : event) : bool :=
  match ev with
  | Bot_send _ _ _ _ _ => true
  | _ => false
  end.

(** The delivery call of a valid submission, as an event. *)
Definition sent (W : World) (data : MessageData) : event :=
  Bot_send (request_bot W) (TELEGRAM_CHAT_ID W) (notification W data)
           (py "Markdown") true.

(** The log record of line 85. *)
Definition announced (W : World) : event :=
  Log DEBUG (py "Sending message to chat_id: " ++ format_opt (TELEGRAM_CHAT_ID W)).

(** The response FastAPI builds from [HTTPException(status_code, detail)]. *)
Definition error_response (s : Z) (d : pystr) : http_response :=
  {| status := s; body := JSON [(py "detail", VStr d)] |}.

(** [d[k]] on a dict literal. *)
Fixpoint dict_get (k : pystr) (d : dict) : option value :=
  match d with
  | [] => None
  | (k', v) :: d' => if list_eq_dec N.eq_dec k k' then Some v else dict_get k d'
  end.

(** The reason of the first rule, in source order, that a submission fails. *)
Definition failed_rule (data : MessageData) : pystr :=
  if negb (fields_present data) then py "All fields must not be empty"
  else if negb (within_limit data) then py "Message exceeds 4096 character limit"
  else py "Invalid email format".

(** The rendering of a framework exception shows its detail. *)
Definition shows_detail (W : World) : Prop :=
  forall s d, str_in d (HTTPException_str W s d) = true.

(** The same world at another instant. *)
Definition at_time (W : World) (d : datetime) : World :=
  {| getenv_TELEGRAM_BOT_TOKEN := getenv_TELEGRAM_BOT_TOKEN W;
     getenv_TELEGRAM_CHAT_ID := getenv_TELEGRAM_CHAT_ID W;
     utcnow := d;
     Bot_init := Bot_init W;
     Bot_send_message := Bot_send_message W;
     HTTPException_str := HTTPException_str W |}.

(** Two instants of the same second. *)
Definition same_second (d d' : datetime) : Prop :=
  year d = year d' /\ month d = month d' /\ day d = day d' /\
  hour d = hour d' /\ minute d = minute d' /\ second d = second d'.

(** The [timestamp] entry of the health record. *)
Definition health_timestamp (W : World) : option value :=
  match snd (health_check W) with
  | inr d => dict_get (py "timestamp") d
  | inl _ => None
  end.

(** ** Predicates on submissions and traces *)

(** A string made of whitespace only (the empty string included). *)
Definition whitespace (s : pystr) : bool := forallb isspace s.

(** A submission with whitespace put around each of its fields. *)
Definition padded (l1 r1 l2 r2 l3 r3 : pystr) (data : MessageData) : MessageData :=
  {| name := l1 ++ name data ++ r1;
     email := l2 ++ email data ++ r2;
     message := l3 ++ message data ++ r3 |}.

Definition is_construct (ev : event) : bool :=
  match ev with
  | Bot_construct _ => true
  | _ => false
  end.

Definition is_error_log (ev : event) : bool :=
  match ev with
  | Log ERROR _ => true
  | _ => false
  end.


(** ** The diagnostic endpoints *)

(** [raise] or [return] what a call into a library did. *)
Definition call {A} (r : exn + A) : M A :=
  match r with
  | inl e => raise e
  | inr a => ret a
  end.

Section Diagnostics.

(** The values that [response.json()] parses to. *)
Variable J : Type.

(** What the diagnostic records hold: a string, or parsed JSON. *)
Inductive dvalue :=
| DStr (s : pystr)
| DJson (j : J).

Definition ddict := list (pystr * dvalue).

(** An [httpx.Response]: what its [json()] does. *)
Record Response := { json : exn + J }.

(** The network and the libraries that the diagnostic endpoints call. *)
Record Net := {
  (** [socket.gethostbyname(host)] *)
  gethostbyname : pystr -> exn + pystr;
  (** [await client.get(url)] *)
  AsyncClient_get : pystr -> exn + Response;
  (** the rendering of a parsed value inside an f-string *)
  format_json : J -> pystr;
  (** the subclass relation between exception classes, by name *)
  issubclass : string -> string -> bool
}.

Variable W : World.
Variable net : Net.

(** Whether [except cls] catches [e]; the exceptions of the framework and of
    the bot library are in neither hierarchy below. *)
Definition isinstance (e : exn) (cls : string) : bool :=
  match e with
  | PyException c _ => issubclass net c cls
  | _ => false
  end.

(** [GET /test-dns] *)
Definition test_dns : M ddict :=
  try_except
    (ip <- call (gethostbyname net (py "api.telegram.org")) ;;
     emit (Log INFO (py "DNS resolved: api.telegram.org -> " ++ ip)) ;;
     ret [ (py "status", DStr (py "success")); (py "ip", DStr ip) ])
    (fun e =>
       if isinstance e "socket.gaierror" then
         Some (emit (Log ERROR (py "DNS resolution failed: " ++ str_exn W e)) ;;
               ret [ (py "status", DStr (py "error"));
                     (py "details", DStr (str_exn W e)) ])
       else None).

(** [GET /test-network] *)
Definition test_network : M ddict :=
  try_except
    (async_with_client 30
       (response <- call (AsyncClient_get net (py "https://api.ipify.org?format=json")) ;;
        logged <- call (json response) ;;
        emit (Log INFO (py "Network test successful: " ++ format_json net logged)) ;;
        data <- call (json response) ;;
        ret [ (py "status", DStr (py "success")); (py "data", DJson data) ]))
    (fun e =>
       if isinstance e "httpx.HTTPError" then
         Some (emit (Log ERROR (py "Network test failed: " ++ str_exn W e)) ;;
               ret [ (py "status", DStr (py "error"));
                     (py "details", DStr (str_exn W e)) ])
       else None).

End Diagnostics.

Arguments DStr {J} s.
Arguments DJson {J} j.
Arguments json {J} r.
Arguments gethostbyname {J} n _.
Arguments AsyncClient_get {J} n _.
Arguments format_json {J} n _.
Arguments issubclass {J} n _ _.
Arguments isinstance {J} net e cls.
Arguments test_dns {J} W net.
Arguments test_network {J} W net.

(** A network where the name does not resolve and the request times out;
    [httpx.ConnectTimeout] is an [httpx.HTTPError]. *)
Definition offline : Net pystr :=
  {| gethostbyname := fun _ =>
       inl (PyException "socket.gaierror" (py "[Errno -2] Name or service not known"));
     AsyncClient_get := fun _ => inl (PyException "httpx.ConnectTimeout" (py ""));
     format_json := fun j => j;
     issubclass := fun c base =>
       String.eqb c base
       || (String.eqb c "httpx.ConnectTimeout" && String.eqb base "httpx.HTTPError") |}.

(** A network that answers, with a body that parses. *)
Definition online : Net pystr :=
  {| gethostbyname := fun _ => inr (py "149.154.167.220");
     AsyncClient_get := fun _ => inr {| json := inr (py "{'ip': '203.0.113.7'}") |};
     format_json := fun j => j;
     issubclass := String.eqb |}.

(** A network that answers, with a body that is not JSON. *)
Definition garbled : Net pystr :=
  {| gethostbyname := fun _ => inr (py "149.154.167.220");
     AsyncClient_get := fun _ =>
       inr {| json := inl (PyException "json.JSONDecodeError"
                             (py "Expecting value: line 1 column 1 (char 0)")) |};
     format_json := fun j => j;
     issubclass := String.eqb |}.

(** The submission ["a@b@c.d"]: the only dot follows a second ['@']. *)
Definition two_ats : MessageData :=
  {| name := py "Ada"; email := py "a@b@c.d"; message := py "Hello" |}.

(** A deployment whose bot constructor refuses the [client] argument. *)
Definition no_client_kwarg_world : World :=
  {| getenv_TELEGRAM_BOT_TOKEN := Some (py "123:abc");
     getenv_TELEGRAM_CHAT_ID := Some (py "42");
     utcnow := noon;
     Bot_init := fun b =>
       if client b then
         Some (PyException "TypeError"
                 (py "Bot.__init__() got an unexpected keyword argument 'client'"))
       else None;
     Bot_send_message := fun _ _ _ _ _ => None;
     HTTPException_str := starlette_str |}.

(** A deployment whose delivery call fails with an exception that is not
    a [TelegramError]. *)
Definition broken_client_world : World :=
  {| getenv_TELEGRAM_BOT_TOKEN := Some (py "123:abc");
     getenv_TELEGRAM_CHAT_ID := Some (py "42");
     utcnow := noon;
     Bot_init := ptb_Bot_init;
     Bot_send_message := fun _ _ _ _ _ =>
       Some (PyException "RuntimeError" (py "This HTTPXRequest is not initialized!"));
     HTTPException_str := starlette_str |}.



(** The address of the request of [test_network], and the host of [test_dns]. *)
Definition ipify : pystr := py "https://api.ipify.org?format=json".
Definition telegram_host : pystr := py "api.telegram.org".

(** The record that the diagnostic endpoints return for a failure. *)
Definition error_record {J : Type} (W : World) (e : exn) : ddict J :=
  [ (py "status", DStr (py "error")); (py "details", DStr (str_exn W e)) ].

(** ** Facts about the string primitives *)

Section StringFacts.

Lemma truthy_nonempty (s : pystr) : truthy s = true <-> s <> [].
Proof. destruct s; simpl; split; congruence. Qed.

Lemma all_three (a b c : pystr) :
  all [a; b; c] = true <-> a <> [] /\ b <> [] /\ c <> [].
Proof.
  unfold all; simpl. rewrite !andb_true_iff, !truthy_nonempty. tauto.
Qed.

Lemma all_three_false (a b c : pystr) :
  all [a; b; c] = false <-> a = [] \/ b = [] \/ c = [].
Proof.
  destruct a, b, c; simpl; split; intros H; try congruence; auto;
    try (now left); try (now right; left); try (now right; right);
    destruct H as [H | [H | H]]; congruence.
Qed.

Lemma startswith_spec (p s : pystr) :
  startswith p s = true <-> exists b, s = p ++ b.
Proof.
  revert s; induction p as [| a p IH]; intros s; simpl.
  - split; [intros _; now exists s | reflexivity].
  - destruct s as [| c s]; simpl.
    + split; [discriminate | intros [b Hb]; discriminate].
    + rewrite andb_true_iff, N.eqb_eq, IH. split.
      * intros [-> [b ->]]; now exists b.
      * intros [b Hb]; injection Hb as -> ->; split; [reflexivity | now exists b].
Qed.

(** [sub in s] holds exactly when [s] is [a + sub + b] for some [a], [b]. *)
Lemma str_in_spec (sub s : pystr) :
  str_in sub s = true <-> exists a b, s = a ++ sub ++ b.
Proof.
  induction s as [| c s IH].
  - simpl. rewrite orb_false_r, startswith_spec. split.
    + intros [b Hb]; now exists [], b.
    + intros [a [b Hab]]. destruct a; [now exists b | discriminate].
  - cbn [str_in]. rewrite orb_true_iff, startswith_spec, IH. split.
    + intros [[b Hb] | [a [b Hab]]].
      * now exists [], b.
      * exists (c :: a), b; simpl; now rewrite Hab.
    + intros [a [b Hab]]. destruct a as [| x a]; simpl in Hab.
      * left; now exists b.
      * right; injection Hab as _ ->; now exists a, b.
Qed.

Lemma str_in_char (c : N) (s : pystr) : str_in [c] s = true <-> In c s.
Proof.
  rewrite str_in_spec; split.
  - intros [a [b ->]]. apply in_or_app; right; now left.
  - intros H. destruct (in_split _ _ H) as [a [b ->]]. now exists a, b.
Qed.

Lemma str_in_char_false (c : N) (s : pystr) :
  str_in [c] s = false <-> ~ In c s.
Proof.
  rewrite <- str_in_char. destruct (str_in [c] s); split; congruence.
Qed.

Lemma str_in_app_r (sub a s : pystr) :
  str_in sub s = true -> str_in sub (a ++ s) = true.
Proof.
  rewrite !str_in_spec. intros [x [y ->]].
  exists (a ++ x), y. now rewrite <- app_assoc.
Qed.

Lemma str_in_trans (a b c : pystr) :
  str_in a b = true -> str_in b c = true -> str_in a c = true.
Proof.
  rewrite !str_in_spec. intros [x [y ->]] [u [v ->]].
  exists (u ++ x), (y ++ v). now rewrite <- !app_assoc.
Qed.

Lemma split_cons (sep : N) (s : pystr) :
  exists w ws, split sep s = w :: ws.
Proof.
  destruct s as [| c s]; simpl; [now eexists _, _ |].
  destruct (c =? sep)%N; [now eexists _, _ |].
  destruct (split sep s); now eexists _, _.
Qed.

(** A string that holds the separator has a second field. *)
Lemma split_second (sep : N) (s : pystr) :
  In sep s -> exists w, nth_error (split sep s) 1 = Some w.
Proof.
  induction s as [| c s IH]; [intros [] |]. intros H. cbn [split].
  destruct (N.eqb_spec c sep) as [E | E].
  - destruct (split_cons sep s) as [w [ws ->]]. now exists w.
  - destruct H as [H | H]; [congruence |].
    destruct (IH H) as [w Hw].
    destruct (split sep s) as [| v [| v' vs]]; try discriminate.
    now exists w.
Qed.

(** Without a separator there is one field, the string itself. *)
Lemma split_no_sep (sep : N) (s : pystr) :
  ~ In sep s -> split sep s = [s].
Proof.
  induction s as [| c s IH]; intros H; simpl; [reflexivity |].
  destruct (N.eqb_spec c sep) as [-> | _].
  - exfalso; apply H; now left.
  - rewrite IH; [reflexivity | intros Hin; apply H; now right].
Qed.

(** The first field ends at the first separator. *)
Lemma split_app_sep (sep : N) (a b : pystr) :
  ~ In sep a -> split sep (a ++ sep :: b) = a :: split sep b.
Proof.
  induction a as [| c a IH]; intros H; simpl.
  - now rewrite N.eqb_refl.
  - destruct (N.eqb_spec c sep) as [-> | _].
    + exfalso; apply H; now left.
    + rewrite IH; [reflexivity | intros Hin; apply H; now right].
Qed.

(** Every field is made of characters of the string. *)
Lemma split_fields_incl (sep : N) (s w : pystr) :
  In w (split sep s) -> incl w s.
Proof.
  revert w; induction s as [| c s IH]; intros w; simpl.
  - intros [<- | []]; apply incl_refl.
  - destruct (c =? sep)%N.
    + intros [<- | Hw]; [intros x [] | apply incl_tl, IH, Hw].
    + destruct (split sep s) as [| v vs] eqn:E.
      * intros [<- | []]. intros x [<- | []]; now left.
      * intros [<- | Hw].
        -- intros x [<- | Hx]; [now left | right].
           apply (IH v); [now left | exact Hx].
        -- apply incl_tl, IH; now right.
Qed.

Lemma zpad_digits (w : nat) (n c : N) :
  In c (zpad w n) -> (48 <= c <= 57)%N.
Proof.
  revert n; induction w as [| w IH]; intros n; cbn [zpad]; [intros [] |].
  intros H; apply in_app_or in H as [H | [H | []]]; [now apply (IH (n / 10)%N) |].
  assert (Hm : (n mod 10 < 10)%N) by (apply N.mod_upper_bound; discriminate).
  revert H Hm; generalize (n mod 10)%N; intros m H Hm; lia.
Qed.

Lemma zpad_no_dot (w : nat) (n : N) : ~ In dot (zpad w n).
Proof. intros H; apply zpad_digits in H; unfold dot in H; lia. Qed.

Lemma iso_seconds_no_dot (d : datetime) : ~ In dot (iso_seconds d).
Proof.
  unfold iso_seconds. intros H.
  repeat (apply in_app_or in H as [H | H];
          [first [now apply zpad_no_dot in H
                 | simpl in H; unfold dot in H; intuition discriminate] |]).
  now apply zpad_no_dot in H.
Qed.

End StringFacts.

(** ** Laws of the handler monad *)

Section MonadLaws.

Context {A B : Type}.

Lemma bind_ret (a : A) (k : A -> M B) : bind (ret a) k = k a.
Proof. unfold bind, ret. destruct (k a). reflexivity. Qed.

Lemma bind_raise (e : exn) (k : A -> M B) : bind (raise e) k = raise e.
Proof. reflexivity. Qed.

End MonadLaws.

(** ** The handler, rule by rule *)

Section Handler.

Variable W : World.
Variable data : MessageData.

Lemma iso_first_field (d : datetime) :
  nth_error (split dot (isoformat d)) 0
  = Some (iso_seconds d ++ (if (microsecond d =? 0)%N then py "+00:00" else [])).
Proof.
  unfold isoformat, iso_fraction.
  destruct (microsecond d =? 0)%N.
  - rewrite split_no_sep; [reflexivity |].
    intros H; apply in_app_or in H as [H | H].
    + now apply iso_seconds_no_dot in H.
    + vm_compute in H; intuition discriminate.
  - change (py "." ++ zpad 6 (microsecond d)) with (dot :: zpad 6 (microsecond d)).
    cbn [app]. rewrite split_app_sep by apply iso_seconds_no_dot.
    rewrite app_nil_r. reflexivity.
Qed.

Lemma try_empty :
  fields_present data = false ->
  send_message_try W data
  = raise (HTTPException 400 (py "All fields must not be empty")).
Proof.
  unfold fields_present, send_message_try; intros H.
  cbv zeta. rewrite H. reflexivity.
Qed.

Lemma try_too_long :
  fields_present data = true -> within_limit data = false ->
  send_message_try W data
  = raise (HTTPException 400 (py "Message exceeds 4096 character limit")).
Proof.
  unfold fields_present, within_limit, send_message_try; intros H1 H2.
  cbv zeta. rewrite H1. apply negb_false_iff in H2. rewrite H2. reflexivity.
Qed.

Lemma try_bad_email :
  fields_present data = true -> within_limit data = true ->
  email_accepted data = false ->
  send_message_try W data
  = raise (HTTPException 400 (py "Invalid email format")).
Proof.
  unfold fields_present, within_limit, email_accepted, send_message_try.
  intros H1 H2 H3. cbv zeta. rewrite H1. apply negb_true_iff in H2. rewrite H2.
  cbn [negb].
  destruct (str_in (py "@") (strip (email data))) eqn:Hat; cbn [negb andb] in *.
  - apply str_in_char, (split_second at_sign) in Hat as [dm E].
    unfold getitem. rewrite E in *. rewrite bind_ret, H3, bind_ret. reflexivity.
  - rewrite bind_ret. reflexivity.
Qed.

End Handler.

Section Delivery.

Variable W : World.
Variable data : MessageData.

(** The whole [try] body on a valid submission, by the outcome of the
    constructor and of the delivery call. *)
Lemma try_valid :
  valid data = true ->
  send_message_try W data
  = match Bot_init W (request_bot W) with
    | Some e =>
        ([announced W; AsyncClient_enter 30; Bot_construct (request_bot W);
          AsyncClient_exit], inl e)
    | None =>
        match delivery W data with
        | None =>
            ([announced W; AsyncClient_enter 30; Bot_construct (request_bot W);
              sent W data; Log INFO (py "Message sent successfully");
              AsyncClient_exit], inr success_body)
        | Some (TelegramError m) =>
            ([announced W; AsyncClient_enter 30; Bot_construct (request_bot W);
              sent W data; Log ERROR (py "TelegramError: " ++ m); AsyncClient_exit],
             inl (HTTPException 500 (py "Failed to send message: " ++ m)))
        | Some e =>
            ([announced W; AsyncClient_enter 30; Bot_construct (request_bot W);
              sent W data; AsyncClient_exit], inl e)
        end
    end.
Proof.
  unfold valid, fields_present, within_limit, email_accepted.
  rewrite !andb_true_iff. intros [[H1 H2] [H3 H4]].
  unfold send_message_try. cbv zeta. rewrite H1. apply negb_true_iff in H2.
  rewrite H2, H3. cbn [negb].
  unfold getitem at 1.
  destruct (nth_error (split at_sign (strip (email data))) 1) as [dm |];
    [| discriminate].
  rewrite !bind_ret, H4. cbn [negb].
  unfold getitem. rewrite iso_first_field, bind_ret.
  fold (timestamp_of (utcnow W)). fold (notification W data).
  fold (request_bot W). fold (announced W).
  unfold delivery, sent, new_Bot, bot_send_message.
  destruct (Bot_init W (request_bot W)) as [e |]; [reflexivity |].
  cbv beta iota delta [bind emit ret raise async_with_client try_except].
  destruct (Bot_send_message W (request_bot W) (TELEGRAM_CHAT_ID W)
              (notification W data) (py "Markdown") true) as [[s d | m | c m] |];
    reflexivity.
Qed.

(** The outer [except Exception] turns whatever the body raised into a
    500, and lets a returned value through. *)
Lemma send_message_wraps :
  snd (send_message W data)
  = match snd (send_message_try W data) with
    | inl e => inl (HTTPException 500 (py "Server error: " ++ str_exn W e))
    | inr d => inr d
    end.
Proof.
  unfold send_message, try_except.
  destruct (send_message_try W data) as [t [e | d]]; reflexivity.
Qed.

Lemma send_message_trace :
  fst (send_message W data)
  = fst (send_message_try W data)
    ++ match snd (send_message_try W data) with
       | inl e => [Log ERROR (py "Unexpected error: " ++ str_exn W e)]
       | inr _ => []
       end.
Proof.
  unfold send_message, try_except.
  destruct (send_message_try W data) as [t [e | d]]; cbn [fst snd].
  - reflexivity.
  - now rewrite app_nil_r.
Qed.

(** The three rules are tested in the order of the source, and the first
    one that fails decides what the body raises. *)
Lemma try_invalid :
  valid data = false ->
  send_message_try W data
  = raise (HTTPException 400
             (if negb (fields_present data)
              then py "All fields must not be empty"
              else if negb (within_limit data)
                   then py "Message exceeds 4096 character limit"
                   else py "Invalid email format")).
Proof.
  unfold valid. intros H.
  destruct (fields_present data) eqn:H1; cbn [negb].
  - destruct (within_limit data) eqn:H2; cbn [negb].
    + apply try_bad_email; auto.
    + apply try_too_long; auto.
  - apply try_empty; auto.
Qed.

End Delivery.

(** ** The rules in the words of the data model *)

Section RuleFacts.

Variable data : MessageData.

Lemma fields_present_false_iff :
  fields_present data = false
  <-> strip (name data) = [] \/ strip (email data) = [] \/ strip (message data) = [].
Proof. apply all_three_false. Qed.

Lemma within_limit_false_iff :
  within_limit data = false <-> (len (strip (message data)) > 4096)%Z.
Proof.
  unfold within_limit. rewrite negb_false_iff. apply Z.gtb_gt.
Qed.

(** No ['@'], or no ['.'] anywhere after the first ['@']: rejected. *)
Lemma email_rejected_when :
  (~ In at_sign (strip (email data))
   \/ exists l r, strip (email data) = l ++ at_sign :: r
                  /\ ~ In at_sign l /\ ~ In dot r) ->
  email_accepted data = false.
Proof.
  unfold email_accepted. intros [H | [l [r [E [Hl Hr]]]]].
  - apply str_in_char_false in H. change (py "@") with [at_sign]. now rewrite H.
  - rewrite E, split_app_sep by exact Hl.
    destruct (split_cons at_sign r) as [w [ws Hs]].
    cbn [nth_error]. rewrite Hs. apply andb_false_iff; right.
    change (py ".") with [dot]. apply str_in_char_false. intros Hw.
    apply Hr. apply (@split_fields_incl at_sign r w); [rewrite Hs; now left | exact Hw].
Qed.

(** Exactly one ['@'] and a ['.'] in the domain part: accepted. *)
Lemma email_accepted_when (l r : pystr) :
  strip (email data) = l ++ at_sign :: r ->
  ~ In at_sign l -> ~ In at_sign r -> In dot r ->
  email_accepted data = true.
Proof.
  unfold email_accepted. intros E Hl Hr Hd.
  rewrite E, split_app_sep, (split_no_sep _ _ Hr) by exact Hl.
  cbn [nth_error]. apply andb_true_iff; split.
  - change (py "@") with [at_sign]. apply str_in_char, in_or_app; right; now left.
  - change (py ".") with [dot]. now apply str_in_char.
Qed.

End RuleFacts.

Lemma starlette_shows_detail (W : World) :
  HTTPException_str W = starlette_str -> shows_detail W.
Proof.
  intros E s d. rewrite E. unfold starlette_str.
  apply str_in_spec. exists (zpad 3 (Z.to_N s) ++ py ": "), [].
  now rewrite app_nil_r, <- app_assoc.
Qed.

(** A submission that breaks a rule gets a 500 whose detail wraps the 400. *)
Lemma invalid_answered_500 (W : World) (data : MessageData) :
  valid data = false ->
  respond (snd (send_message W data))
  = error_response 500
      (py "Server error: " ++ HTTPException_str W 400 (failed_rule data)).
Proof.
  intros H. rewrite send_message_wraps, (try_invalid W data H). reflexivity.
Qed.

(** The same, in the words of the three rules. *)
Lemma empty_field_answered_500 (W : World) (data : MessageData) :
  strip (name data) = [] \/ strip (email data) = [] \/ strip (message data) = [] ->
  respond (snd (send_message W data))
  = error_response 500
      (py "Server error: "
       ++ HTTPException_str W 400 (py "All fields must not be empty")).
Proof.
  intros H. apply fields_present_false_iff in H.
  rewrite send_message_wraps, (try_empty W data H). reflexivity.
Qed.

Lemma long_message_answered_500 (W : World) (data : MessageData) :
  fields_present data = true ->
  (len (strip (message data)) > 4096)%Z ->
  respond (snd (send_message W data))
  = error_response 500
      (py "Server error: "
       ++ HTTPException_str W 400 (py "Message exceeds 4096 character limit")).
Proof.
  intros H1 H2. apply within_limit_false_iff in H2.
  rewrite send_message_wraps, (try_too_long W data H1 H2). reflexivity.
Qed.

Lemma bad_email_answered_500 (W : World) (data : MessageData) :
  fields_present data = true -> within_limit data = true ->
  (~ In at_sign (strip (email data))
   \/ exists l r, strip (email data) = l ++ at_sign :: r
                  /\ ~ In at_sign l /\ ~ In dot r) ->
  respond (snd (send_message W data))
  = error_response 500
      (py "Server error: " ++ HTTPException_str W 400 (py "Invalid email format")).
Proof.
  intros H1 H2 H3. apply email_rejected_when in H3.
  rewrite send_message_wraps, (try_bad_email W data H1 H2 H3). reflexivity.
Qed.

(** The outer [except] applied to a known outcome of the body. *)
Ltac outer_except E :=
  rewrite send_message_wraps, E;
  repeat split; try reflexivity; try discriminate.

(** ** The claims of the specification *)

(** C1.  The specification promises a 400 with the reason "All fields must
    not be empty" when a trimmed field is empty.  On the submission
    [blank_name] (a name of three spaces) the emptiness rule fires and the
    body raises that 400, but the outer [except Exception] catches it: the
    answer is a 500 whose detail wraps the rendering of the 400. *)
Theorem C1_blank_field_is_answered_500 (W : World) :
  fields_present blank_name = false
  /\ snd (send_message_try W blank_name)
     = inl (HTTPException 400 (py "All fields must not be empty"))
  /\ respond (snd (send_message W blank_name))
     = error_response 500
         (py "Server error: "
          ++ HTTPException_str W 400 (py "All fields must not be empty"))
  /\ status (respond (snd (send_message W blank_name))) <> 400%Z.
Proof.
  assert (H : fields_present blank_name = false) by reflexivity.
  split; [exact H |]. split; [| split].
  - now rewrite (try_empty W blank_name H).
  - outer_except (try_empty W blank_name H).
  - outer_except (try_empty W blank_name H).
Qed.

(** C2.  The specification promises a 400 with the reason "Invalid email
    format" for an email without ['@'].  On the submission [no_at] (email
    [ada.example.org]) the first two rules pass and the body raises that
    400, which the outer [except Exception] turns into a 500. *)
Theorem C2_bad_email_is_answered_500 (W : World) :
  fields_present no_at = true /\ within_limit no_at = true
  /\ email_accepted no_at = false
  /\ snd (send_message_try W no_at)
     = inl (HTTPException 400 (py "Invalid email format"))
  /\ respond (snd (send_message W no_at))
     = error_response 500
         (py "Server error: " ++ HTTPException_str W 400 (py "Invalid email format"))
  /\ status (respond (snd (send_message W no_at))) <> 400%Z.
Proof.
  assert (H1 : fields_present no_at = true) by reflexivity.
  assert (H2 : within_limit no_at = true) by reflexivity.
  assert (H3 : email_accepted no_at = false) by reflexivity.
  repeat (split; [assumption |]).
  outer_except (try_bad_email W no_at H1 H2 H3).
Qed.

(** C3.  Whatever exception the body of the [try] raises, the caller gets
    status 500 and the detail ["Server error: " + str(e)]; for a submission
    that breaks a validation rule the exception so wrapped is the 400 of
    the first rule broken. *)
Theorem C3_every_failure_becomes_500 (W : World) (data : MessageData) (e : exn) :
  snd (send_message_try W data) = inl e ->
  respond (snd (send_message W data))
  = error_response 500 (py "Server error: " ++ str_exn W e)
  /\ startswith (py "Server error: ")
       (py "Server error: " ++ str_exn W e) = true
  /\ (valid data = false -> e = HTTPException 400 (failed_rule data)).
Proof.
  intros H. split; [| split].
  - rewrite send_message_wraps, H. reflexivity.
  - apply startswith_spec. now exists (str_exn W e).
  - intros Hv. rewrite (try_invalid W data Hv) in H.
    unfold raise in H; cbn [snd] in H. injection H as <-. reflexivity.
Qed.

(** C3 at a concrete input: the blank name under the configured deployment. *)
Lemma C3_witness :
  snd (send_message_try ok_world blank_name)
  = inl (HTTPException 400 (py "All fields must not be empty"))
  /\ respond (snd (send_message ok_world blank_name))
     = error_response 500 (py "Server error: 400: All fields must not be empty").
Proof.
  split; [reflexivity |].
  apply (C3_every_failure_becomes_500 ok_world blank_name
           (HTTPException 400 (py "All fields must not be empty"))).
  reflexivity.
Defined.

(** C4.  The rules are tried in the order emptiness, length, email format:
    on [too_long] (4097 characters, and an email without ['@']) the body
    raises the 400 of the length rule.  The specification promises that 400
    to the caller; the outer [except Exception] answers 500 instead. *)
Theorem C4_long_message_is_answered_500 (W : World) :
  fields_present too_long = true /\ within_limit too_long = false
  /\ email_accepted too_long = false
  /\ snd (send_message_try W too_long)
     = inl (HTTPException 400 (py "Message exceeds 4096 character limit"))
  /\ respond (snd (send_message W too_long))
     = error_response 500
         (py "Server error: "
          ++ HTTPException_str W 400 (py "Message exceeds 4096 character limit"))
  /\ status (respond (snd (send_message W too_long))) <> 400%Z.
Proof.
  assert (H1 : fields_present too_long = true) by reflexivity.
  assert (H2 : within_limit too_long = false) by (vm_compute; reflexivity).
  assert (H3 : email_accepted too_long = false) by reflexivity.
  repeat (split; [assumption |]).
  outer_except (try_too_long W too_long H1 H2).
Qed.

(** C5.  A valid submission whose client is constructed and whose delivery
    call returns is answered with status 200 and exactly the body
    [{"success": True, "message": "Message sent to Telegram"}]. *)
Theorem C5_success_acknowledged (W : World) (data : MessageData) :
  valid data = true ->
  Bot_init W (request_bot W) = None ->
  delivery W data = None ->
  snd (send_message W data)
  = inr [ (py "success", VBool true);
          (py "message", VStr (py "Message sent to Telegram")) ]
  /\ respond (snd (send_message W data))
     = {| status := 200;
          body := JSON [ (py "success", VBool true);
                         (py "message", VStr (py "Message sent to Telegram")) ] |}.
Proof.
  intros Hv Hb Hd.
  rewrite send_message_wraps, (try_valid W data Hv), Hb, Hd. split; reflexivity.
Qed.

(** C5 at a concrete input: the submission [hello] under a client that delivers. *)
Lemma C5_witness :
  respond (snd (send_message ok_world hello))
  = {| status := 200;
       body := JSON [ (py "success", VBool true);
                      (py "message", VStr (py "Message sent to Telegram")) ] |}.
Proof.
  apply (C5_success_acknowledged ok_world hello); reflexivity.
Defined.

(** C6.  A valid submission whose delivery call raises a [TelegramError]
    with message [m] (for instance "boom") is answered with status 500; the
    detail is ["Server error: "] followed by the rendering of the inner
    [HTTPException(500, "Failed to send message: " + m)], and it contains
    [m] as soon as that rendering shows the detail of the exception. *)
Theorem C6_delivery_failure_is_500 (W : World) (data : MessageData) (m : pystr) :
  valid data = true ->
  Bot_init W (request_bot W) = None ->
  delivery W data = Some (TelegramError m) ->
  shows_detail W ->
  exists detail,
    respond (snd (send_message W data)) = error_response 500 detail
    /\ detail = py "Server error: "
                ++ HTTPException_str W 500 (py "Failed to send message: " ++ m)
    /\ str_in m detail = true.
Proof.
  intros Hv Hb Hd Hs. eexists. split; [| split; [reflexivity |]].
  - rewrite send_message_wraps, (try_valid W data Hv), Hb, Hd. reflexivity.
  - apply str_in_app_r.
    apply str_in_trans with (b := py "Failed to send message: " ++ m).
    + apply str_in_spec. exists (py "Failed to send message: "), [].
      now rewrite app_nil_r.
    + apply Hs.
Qed.

(** C6 at a concrete input: the submission [hello] under a client that raises "boom". *)
Lemma C6_witness :
  exists detail,
    respond (snd (send_message (failing_world (py "boom")) hello))
    = error_response 500 detail
    /\ detail = py "Server error: 500: Failed to send message: boom"
    /\ str_in (py "boom") detail = true.
Proof.
  destruct (C6_delivery_failure_is_500 (failing_world (py "boom")) hello
              (py "boom")) as [detail [H1 [H2 H3]]].
  - reflexivity.
  - reflexivity.
  - reflexivity.
  - now apply starlette_shows_detail.
  - exists detail. repeat split; [exact H1 | rewrite H2; reflexivity | exact H3].
Defined.

(** C7.  A submission that breaks a validation rule never reaches the
    messaging client: the trace of the request holds a single log record,
    and no event of the transport, of the bot constructor or of the
    delivery call. *)
Theorem C7_invalid_never_reaches_client (W : World) (data : MessageData) :
  valid data = false ->
  fst (send_message W data)
  = [Log ERROR (py "Unexpected error: "
                ++ HTTPException_str W 400 (failed_rule data))]
  /\ filter touches_client (fst (send_message W data)) = []
  /\ filter is_send (fst (send_message W data)) = [].
Proof.
  intros Hv.
  assert (E : fst (send_message W data)
              = [Log ERROR (py "Unexpected error: "
                            ++ HTTPException_str W 400 (failed_rule data))]).
  { rewrite send_message_trace, (try_invalid W data Hv). reflexivity. }
  rewrite E. repeat split.
Qed.

(** C7 at a concrete input: the over-long message under the configured deployment. *)
Lemma C7_witness :
  filter touches_client (fst (send_message ok_world too_long)) = [].
Proof.
  apply (C7_invalid_never_reaches_client ok_world too_long).
  vm_compute; reflexivity.
Defined.

(** C8, as stated, fails: the health timestamp keeps the microseconds, so
    two calls within the same second are stamped differently. *)
Lemma C8_health_stamp_keeps_microseconds :
  same_second noon noon_later
  /\ health_timestamp (at_time ok_world noon)
     = Some (VStr (py "2024-01-01T12:00:00.123456+00:00 UTC"))
  /\ health_timestamp (at_time ok_world noon_later)
     = Some (VStr (py "2024-01-01T12:00:00.654321+00:00 UTC"))
  /\ ~ (forall W W', same_second (utcnow W) (utcnow W') ->
                     health_timestamp W = health_timestamp W').
Proof.
  split; [repeat split |]. split; [reflexivity |]. split; [reflexivity |].
  intros H.
  specialize (H (at_time ok_world noon) (at_time ok_world noon_later)).
  assert (S : same_second noon noon_later) by (repeat split).
  specialize (H S). vm_compute in H. discriminate.
Qed.

(** C8, amended.  [GET /health] raises nothing and has no effect; it
    returns status "healthy", the description "Telegram backend is
    running", and as timestamp the full ISO rendering of the current UTC
    time (the seconds, then a six-digit fraction unless the microseconds
    are zero, then the offset [+00:00]) followed by [" UTC"]. *)
Theorem C8_health_record (W : World) :
  health_check W
  = ([], inr [ (py "status", VStr (py "healthy"));
               (py "message", VStr (py "Telegram backend is running"));
               (py "timestamp",
                VStr (iso_seconds (utcnow W)
                      ++ (if (microsecond (utcnow W) =? 0)%N then []
                          else py "." ++ zpad 6 (microsecond (utcnow W)))
                      ++ py "+00:00" ++ py " UTC")) ])
  /\ status (respond (snd (health_check W))) = 200%Z
  /\ exists stamp, health_timestamp W = Some (VStr (stamp ++ py " UTC")).
Proof.
  unfold health_check, isoformat, iso_fraction. split; [| split].
  - unfold ret. now rewrite <- !app_assoc.
  - reflexivity.
  - eexists. unfold health_timestamp, health_check, ret. reflexivity.
Qed.

(** C9.  For a valid submission the only delivery call carries the
    template of lines 73-83: the header, the line [_Received on: ..._] with
    the ISO rendering cut at its first ['.'] and [" UTC"] appended, a
    separator, the trimmed name and email under their labels, a separator,
    and the trimmed message as it is; it is sent to the configured chat with
    [parse_mode="Markdown"] and [disable_notification=True]. *)
Theorem C9_notification_template (W : World) (data : MessageData) :
  valid data = true ->
  Bot_init W (request_bot W) = None ->
  filter is_send (fst (send_message W data))
  = [ Bot_send (request_bot W) (TELEGRAM_CHAT_ID W)
        (py "*New Message*" ++ nl
         ++ py "_Received on: "
         ++ ((iso_seconds (utcnow W)
              ++ (if (microsecond (utcnow W) =? 0)%N then py "+00:00" else []))
             ++ py " UTC")
         ++ py "_" ++ nl
         ++ py "---" ++ nl
         ++ py "*Sender Details:*" ++ nl
         ++ py "- *Name:* " ++ strip (name data) ++ nl
         ++ py "- *Email:* " ++ strip (email data) ++ nl
         ++ py "---" ++ nl
         ++ py "*Message:*" ++ nl
         ++ strip (message data))
        (py "Markdown") true ]
  /\ ~ In dot (iso_seconds (utcnow W)).
Proof.
  intros Hv Hb. split; [| apply iso_seconds_no_dot].
  rewrite send_message_trace, (try_valid W data Hv), Hb.
  fold (timestamp_of (utcnow W)).
  change (Bot_send (request_bot W) (TELEGRAM_CHAT_ID W) _ (py "Markdown") true)
    with (sent W data).
  destruct (delivery W data) as [[s d | m | c m] |]; reflexivity.
Qed.

(** C9 at a concrete input: the submission [hello] at noon of 2024-01-01. *)
Lemma C9_witness :
  filter is_send (fst (send_message ok_world hello))
  = [ Bot_send (request_bot ok_world) (Some (py "42"))
        (py "*New Message*" ++ nl
         ++ py "_Received on: 2024-01-01T12:00:00 UTC_" ++ nl
         ++ py "---" ++ nl
         ++ py "*Sender Details:*" ++ nl
         ++ py "- *Name:* Ada" ++ nl
         ++ py "- *Email:* ada@example.org" ++ nl
         ++ py "---" ++ nl
         ++ py "*Message:*" ++ nl
         ++ py "Hello")
        (py "Markdown") true ].
Proof.
  destruct (C9_notification_template ok_world hello) as [H _];
    [reflexivity | reflexivity |].
  rewrite H. reflexivity.
Defined.





(** ** Trimming *)

Section Trimming.

Lemma whitespace_rev (s : pystr) : whitespace (rev s) = whitespace s.
Proof.
  unfold whitespace. destruct (forallb isspace s) eqn:E.
  - apply forallb_forall. intros x Hx. apply in_rev in Hx.
    revert x Hx. now apply forallb_forall.
  - destruct (forallb isspace (rev s)) eqn:E'; [| reflexivity].
    rewrite <- E. symmetry. apply forallb_forall. intros x Hx.
    apply in_rev in Hx. revert x Hx. now apply forallb_forall.
Qed.

Lemma whitespace_app (a b : pystr) :
  whitespace (a ++ b) = whitespace a && whitespace b.
Proof. apply forallb_app. Qed.

Lemma lstrip_ws_app (l s : pystr) :
  whitespace l = true -> lstrip (l ++ s) = lstrip s.
Proof.
  induction l as [| c l IH]; [reflexivity |]. cbn.
  intros H; apply andb_true_iff in H as [Hc Hl]. now rewrite Hc, IH.
Qed.

Lemma lstrip_empty_iff (s : pystr) : lstrip s = [] <-> whitespace s = true.
Proof.
  induction s as [| c s IH]; cbn; [tauto |].
  destruct (isspace c); cbn; [exact IH | split; discriminate].
Qed.

Lemma lstrip_app_keep (s r : pystr) :
  lstrip s <> [] -> lstrip (s ++ r) = lstrip s ++ r.
Proof.
  induction s as [| c s IH]; cbn; [congruence |].
  destruct (isspace c); [exact IH | reflexivity].
Qed.

(** What [lstrip] removes is whitespace. *)
Lemma lstrip_decompose (s : pystr) :
  exists l, s = l ++ lstrip s /\ whitespace l = true.
Proof.
  induction s as [| c s [l [E Hl]]]; [now exists [] |]. cbn.
  destruct (isspace c) eqn:Hc.
  - exists (c :: l). split; [cbn; now rewrite <- E |].
    unfold whitespace in *. cbn. now rewrite Hc, Hl.
  - now exists [].
Qed.

Lemma rstrip_app_ws (s r : pystr) :
  whitespace r = true -> rstrip (s ++ r) = rstrip s.
Proof.
  intros H. unfold rstrip. rewrite rev_app_distr, lstrip_ws_app; [reflexivity |].
  now rewrite whitespace_rev.
Qed.

Lemma rstrip_decompose (s : pystr) :
  exists r, s = rstrip s ++ r /\ whitespace r = true.
Proof.
  destruct (lstrip_decompose (rev s)) as [l [E Hl]].
  exists (rev l). split; [| now rewrite whitespace_rev].
  unfold rstrip. rewrite <- rev_app_distr, <- E. now rewrite rev_involutive.
Qed.

(** Whitespace around a string does not change what [strip] returns. *)
Lemma strip_padded (l s r : pystr) :
  whitespace l = true -> whitespace r = true ->
  strip (l ++ s ++ r) = strip s.
Proof.
  intros Hl Hr. unfold strip. rewrite lstrip_ws_app by exact Hl.
  destruct (lstrip s) as [| c t] eqn:E.
  - apply lstrip_empty_iff in E.
    assert (H : lstrip (s ++ r) = []).
    { apply lstrip_empty_iff. now rewrite whitespace_app, E, Hr. }
    now rewrite H.
  - rewrite lstrip_app_keep by (rewrite E; discriminate).
    rewrite E. now apply rstrip_app_ws.
Qed.

(** A string is its trimmed form with whitespace on both sides. *)
Lemma strip_decompose (s : pystr) :
  exists l r, s = l ++ strip s ++ r /\ whitespace l = true /\ whitespace r = true.
Proof.
  destruct (lstrip_decompose s) as [l [El Hl]].
  destruct (rstrip_decompose (lstrip s)) as [r [Er Hr]].
  exists l, r. unfold strip. now rewrite <- Er, <- El.
Qed.

Lemma strip_idempotent (s : pystr) : strip (strip s) = strip s.
Proof.
  destruct (strip_decompose s) as [l [r [E [Hl Hr]]]].
  rewrite E at 2. now rewrite strip_padded.
Qed.

Lemma strip_empty_iff (s : pystr) : strip s = [] <-> whitespace s = true.
Proof.
  split.
  - intros H. destruct (strip_decompose s) as [l [r [E [Hl Hr]]]].
    rewrite E, H. cbn. now rewrite whitespace_app, Hl, Hr.
  - intros H. replace s with (s ++ [] ++ []) by now rewrite !app_nil_r.
    now rewrite strip_padded.
Qed.

End Trimming.

(** ** The fields of a line *)

Section Fields.

Lemma first_occurrence (c : N) (s : pystr) :
  In c s -> exists l t, s = l ++ c :: t /\ ~ In c l.
Proof.
  induction s as [| x s IH]; [intros [] |]. intros H.
  destruct (N.eq_dec x c) as [-> | Hx].
  - exists [], s. split; [reflexivity | intros []].
  - destruct H as [H | H]; [contradiction |].
    destruct (IH H) as [l [t [E Hl]]].
    exists (x :: l), t. split; [cbn; now rewrite E |].
    intros [Hc | Hc]; [contradiction | now apply Hl].
Qed.

(** The first field of [split]: what comes before the first separator. *)
Lemma split_first_field (sep : N) (s m : pystr) :
  nth_error (split sep s) 0 = Some m
  <-> exists rest, s = m ++ rest /\ ~ In sep m
                   /\ (rest = [] \/ exists r, rest = sep :: r).
Proof.
  split.
  - intros H. destruct (in_dec N.eq_dec sep s) as [Hin | Hin].
    + destruct (first_occurrence sep s Hin) as [l [t [E Hl]]].
      rewrite E, split_app_sep in H by exact Hl. injection H as <-.
      exists (sep :: t). repeat split; [exact E | exact Hl | right; now exists t].
    + rewrite split_no_sep in H by exact Hin. injection H as <-.
      exists []. repeat split; [now rewrite app_nil_r | exact Hin | now left].
  - intros [rest [E [Hm [-> | [r ->]]]]]; subst s.
    + rewrite app_nil_r, split_no_sep by exact Hm. reflexivity.
    + now rewrite split_app_sep by exact Hm.
Qed.

(** The second field of [split]: what lies between the first separator and
    the next one, or the end. *)
Lemma split_second_field (sep : N) (s m : pystr) :
  nth_error (split sep s) 1 = Some m
  <-> exists l rest, s = l ++ sep :: m ++ rest /\ ~ In sep l /\ ~ In sep m
                     /\ (rest = [] \/ exists r, rest = sep :: r).
Proof.
  split.
  - intros H. destruct (in_dec N.eq_dec sep s) as [Hin | Hin].
    + destruct (first_occurrence sep s Hin) as [l [t [E Hl]]].
      rewrite E, split_app_sep in H by exact Hl. cbn [nth_error] in H.
      apply split_first_field in H as [rest [Et [Hm Hrest]]].
      exists l, rest. rewrite E, Et. now repeat split.
    + rewrite split_no_sep in H by exact Hin. discriminate.
  - intros [l [rest [E [Hl [Hm Hrest]]]]]. subst s.
    rewrite split_app_sep by exact Hl. cbn [nth_error].
    apply split_first_field. now exists rest.
Qed.

End Fields.

(** ** Further properties of the handlers *)

(** X1.  Whitespace put around the name, the email and the message changes
    nothing: the padded submission leaves the same trace and gets the same
    result as the submission itself. *)
Theorem X1_padding_is_ignored (W : World) (data : MessageData)
    (l1 r1 l2 r2 l3 r3 : pystr) :
  whitespace (l1 ++ r1 ++ l2 ++ r2 ++ l3 ++ r3) = true ->
  send_message W (padded l1 r1 l2 r2 l3 r3 data) = send_message W data.
Proof.
  rewrite !whitespace_app, !andb_true_iff.
  intros [H1 [H2 [H3 [H4 [H5 H6]]]]].
  unfold send_message, send_message_try, padded. cbn [name email message].
  now rewrite !strip_padded.
Qed.

(** X1 on [" Ada "] and a message between a tab and a line break. *)
Lemma X1_witness :
  send_message ok_world
    (padded (py " ") (py "  ") [] (py " ") [9%N] [13%N; 10%N] hello)
  = send_message ok_world hello.
Proof.
  apply (X1_padding_is_ignored ok_world hello). reflexivity.
Defined.

(** X2.  The emptiness rule of line 65 passes exactly when none of the three
    raw fields is made of whitespace only; and when it does not pass, the
    body raises its 400 without looking at anything else. *)
Theorem X2_blank_means_whitespace_only (W : World) (data : MessageData) :
  fields_present data
  = negb (whitespace (name data)) && negb (whitespace (email data))
    && negb (whitespace (message data))
  /\ (whitespace (name data) || whitespace (email data)
      || whitespace (message data) = true ->
      send_message_try W data
      = raise (HTTPException 400 (py "All fields must not be empty"))).
Proof.
  assert (T : forall s, truthy (strip s) = negb (whitespace s)).
  { intros s. destruct (whitespace s) eqn:E.
    - apply strip_empty_iff in E. now rewrite E.
    - destruct (strip s) eqn:E'; [| reflexivity].
      apply strip_empty_iff in E'. congruence. }
  assert (E : fields_present data
              = negb (whitespace (name data)) && negb (whitespace (email data))
                && negb (whitespace (message data))).
  { unfold fields_present, all. cbn [forallb]. rewrite !T.
    now rewrite andb_true_r, andb_assoc. }
  split; [exact E |].
  intros H. apply try_empty. rewrite E.
  destruct (whitespace (name data)), (whitespace (email data)),
    (whitespace (message data)); cbn in *; congruence.
Qed.

(** X2 on a message of line breaks and no-break spaces only. *)
Lemma X2_witness :
  send_message_try ok_world
    {| name := py "Ada"; email := py "ada@example.org";
       message := [10%N; 160%N; 8232%N; 12288%N] |}
  = raise (HTTPException 400 (py "All fields must not be empty")).
Proof.
  apply X2_blank_means_whitespace_only. reflexivity.
Defined.

(** X3.  The email rule of line 69 accepts exactly the trimmed addresses of
    the form [l @ m rest] where [l] and [m] hold no ['@'], [m] holds a
    ['.'], and [rest] is empty or starts with a second ['@']: only the part
    between the first ['@'] and the next one is searched for the dot. *)
Theorem X3_email_rule_characterised (data : MessageData) :
  email_accepted data = true
  <-> exists l m rest,
        strip (email data) = l ++ at_sign :: m ++ rest
        /\ ~ In at_sign l /\ ~ In at_sign m
        /\ (rest = [] \/ exists r, rest = at_sign :: r)
        /\ In dot m.
Proof.
  unfold email_accepted. change (py "@") with [at_sign]. change (py ".") with [dot].
  split.
  - intros H. apply andb_true_iff in H as [_ H].
    destruct (nth_error (split at_sign (strip (email data))) 1) as [m |] eqn:E;
      [| discriminate].
    apply split_second_field in E as [l [rest [E [Hl [Hm Hrest]]]]].
    exists l, m, rest. repeat split; try assumption. now apply str_in_char.
  - intros [l [m [rest [E [Hl [Hm [Hrest Hd]]]]]]].
    assert (F : nth_error (split at_sign (strip (email data))) 1 = Some m).
    { apply split_second_field. now exists l, rest. }
    rewrite F. apply andb_true_iff; split; apply str_in_char; [| exact Hd].
    rewrite E. apply in_or_app; right; now left.
Qed.

(** X4.  An address with a second ['@'] is judged by what stands between the
    two: without a dot there it is refused, whatever follows (so
    ["a@b@c.d"] is refused), and with a dot there it is accepted, whatever
    follows (so ["a@b.c@d"] is accepted). *)
Theorem X4_second_at_sign (data : MessageData) (l m r : pystr) :
  strip (email data) = l ++ at_sign :: m ++ at_sign :: r ->
  ~ In at_sign l -> ~ In at_sign m ->
  email_accepted data = str_in (py ".") m.
Proof.
  intros E Hl Hm. unfold email_accepted.
  assert (F : nth_error (split at_sign (strip (email data))) 1 = Some m).
  { apply split_second_field. exists l, (at_sign :: r).
    repeat split; try assumption. right; now exists r. }
  rewrite F. replace (str_in (py "@") (strip (email data))) with true; [reflexivity |].
  symmetry. change (py "@") with [at_sign]. apply str_in_char.
  rewrite E. apply in_or_app; right; now left.
Qed.

(** X4 on ["a@b@c.d"]. *)
Lemma X4_witness : email_accepted two_ats = false.
Proof.
  rewrite (X4_second_at_sign two_ats (py "a") (py "b") (py "c.d")).
  - reflexivity.
  - reflexivity.
  - cbn. intros [H | []]. discriminate.
  - cbn. intros [H | []]. discriminate.
Defined.

(** ** The ways out of [send_message] *)

(** The body of the [try] by cases: the rule broken, or else the outcome of
    the constructor and of the delivery call. *)
Ltac body_cases W data Hv Hb Hd :=
  destruct (valid data) eqn:Hv;
  [ rewrite (try_valid W data Hv);
    destruct (Bot_init W (request_bot W)) as [? |] eqn:Hb;
    [| destruct (delivery W data) as [[? ? | ? | ? ?] |] eqn:Hd ]
  | rewrite (try_invalid W data Hv) ].

(** X5.  A request is acknowledged only after the message was handed over:
    if the handler returns, it returns the success body, the submission
    passed the three rules, the constructor and the delivery call raised
    nothing, and the trace holds that delivery call. *)
Theorem X5_success_means_delivered (W : World) (data : MessageData) (d : dict) :
  snd (send_message W data) = inr d ->
  d = success_body
  /\ valid data = true
  /\ Bot_init W (request_bot W) = None
  /\ delivery W data = None
  /\ In (sent W data) (fst (send_message W data)).
Proof.
  rewrite send_message_wraps, send_message_trace.
  body_cases W data Hv Hb Hd; cbn [snd fst]; intros H; try discriminate.
  injection H as <-. repeat split. cbn. auto.
Qed.

(** X5 on the submission [hello] under a client that delivers. *)
Lemma X5_witness : In (sent ok_world hello) (fst (send_message ok_world hello)).
Proof.
  apply (X5_success_means_delivered ok_world hello success_body). reflexivity.
Defined.

(** X6.  Nothing is tried twice: a request builds the bot once if the
    submission is valid and not at all otherwise, and it calls the delivery
    once if moreover the constructor raised nothing, and not at all
    otherwise, whatever the delivery call then does. *)
Theorem X6_no_retry (W : World) (data : MessageData) :
  filter is_construct (fst (send_message W data))
  = (if valid data then [Bot_construct (request_bot W)] else [])
  /\ filter is_send (fst (send_message W data))
     = (if valid data
        then match Bot_init W (request_bot W) with
             | None => [sent W data]
             | Some _ => []
             end
        else []).
Proof.
  rewrite send_message_trace.
  body_cases W data Hv Hb Hd; split; reflexivity.
Qed.


(** X8.  When the constructor of line 87 raises [e], the request is answered
    with status 500 and the detail ["Server error: " + str(e)]; the client
    is entered and left, and no delivery is attempted. *)
Theorem X8_constructor_failure (W : World) (data : MessageData) (e : exn) :
  valid data = true ->
  Bot_init W (request_bot W) = Some e ->
  respond (snd (send_message W data))
  = error_response 500 (py "Server error: " ++ str_exn W e)
  /\ fst (send_message W data)
     = [ announced W; AsyncClient_enter 30; Bot_construct (request_bot W);
         AsyncClient_exit;
         Log ERROR (py "Unexpected error: " ++ str_exn W e) ].
Proof.
  intros Hv Hb.
  rewrite send_message_wraps, send_message_trace, (try_valid W data Hv), Hb.
  split; reflexivity.
Qed.

(** X8 under a constructor that has no [client] parameter. *)
Lemma X8_witness :
  respond (snd (send_message no_client_kwarg_world hello))
  = error_response 500
      (py "Server error: Bot.__init__() got an unexpected keyword argument 'client'").
Proof.
  apply (X8_constructor_failure no_client_kwarg_world hello
           (PyException "TypeError"
              (py "Bot.__init__() got an unexpected keyword argument 'client'")));
    reflexivity.
Defined.

(** X9.  When the delivery call raises an exception that is not a
    [TelegramError], the inner [except] does not apply: the detail is
    ["Server error: " + str(e)], without the words "Failed to send
    message", and the trace holds one ERROR record, not two. *)
Theorem X9_other_delivery_failure (W : World) (data : MessageData) (e : exn) :
  valid data = true ->
  Bot_init W (request_bot W) = None ->
  delivery W data = Some e ->
  (forall m, e <> TelegramError m) ->
  respond (snd (send_message W data))
  = error_response 500 (py "Server error: " ++ str_exn W e)
  /\ filter is_error_log (fst (send_message W data))
     = [Log ERROR (py "Unexpected error: " ++ str_exn W e)].
Proof.
  intros Hv Hb Hd Hne.
  rewrite send_message_wraps, send_message_trace, (try_valid W data Hv), Hb, Hd.
  destruct e as [s d | m | c m]; [| now destruct (Hne m) |]; split; reflexivity.
Qed.

(** X9 under a delivery call that raises a [RuntimeError]. *)
Lemma X9_witness :
  respond (snd (send_message broken_client_world hello))
  = error_response 500 (py "Server error: This HTTPXRequest is not initialized!").
Proof.
  apply (X9_other_delivery_failure broken_client_world hello
           (PyException "RuntimeError" (py "This HTTPXRequest is not initialized!")));
    try reflexivity.
  intros m. discriminate.
Defined.

(** X10.  A request that fails ends its trace with the ERROR record of the
    exception that the answer wraps; a request that succeeds leaves no
    ERROR record. *)
Theorem X10_failures_are_logged (W : World) (data : MessageData) :
  match snd (send_message_try W data) with
  | inl e =>
      exists t,
        fst (send_message W data)
        = t ++ [Log ERROR (py "Unexpected error: " ++ str_exn W e)]
        /\ snd (send_message W data)
           = inl (HTTPException 500 (py "Server error: " ++ str_exn W e))
  | inr _ => filter is_error_log (fst (send_message W data)) = []
  end.
Proof.
  rewrite send_message_trace, send_message_wraps.
  body_cases W data Hv Hb Hd; cbn [snd fst];
    try (eexists; split; reflexivity); reflexivity.
Qed.

(** ** The text and its timestamp *)

Lemma zpad_length (w : nat) (n : N) : List.length (zpad w n) = w.
Proof.
  revert n; induction w as [| w IH]; intros n; cbn [zpad]; [reflexivity |].
  rewrite length_app, IH. cbn. lia.
Qed.

Lemma iso_seconds_length (d : datetime) : List.length (iso_seconds d) = 19%nat.
Proof.
  unfold iso_seconds. repeat rewrite length_app. repeat rewrite zpad_length.
  reflexivity.
Qed.

(** X11.  The text sent is longer than the message it carries by the two
    other fields and by 113 characters of template and timestamp (119 when
    the microseconds are zero and the offset stays in the timestamp): the
    limit of 4096 characters of line 67 bounds the message, not the text. *)
Theorem X11_text_length (W : World) (data : MessageData) :
  len (notification W data)
  = (len (strip (name data)) + len (strip (email data))
     + len (strip (message data))
     + (if (microsecond (utcnow W) =? 0)%N then 119 else 113))%Z
  /\ (len (notification W data) > len (strip (message data)))%Z.
Proof.
  assert (E : len (notification W data)
              = (len (strip (name data)) + len (strip (email data))
                 + len (strip (message data))
                 + (if (microsecond (utcnow W) =? 0)%N then 119 else 113))%Z).
  { unfold len, notification, telegram_message, timestamp_of.
    repeat rewrite length_app. rewrite iso_seconds_length.
    destruct (microsecond (utcnow W) =? 0)%N; cbn [List.length py nl map
      list_ascii_of_string]; lia. }
  split; [exact E |]. rewrite E. unfold len.
  destruct (microsecond (utcnow W) =? 0)%N; lia.
Qed.

(** X12.  [GET /health] and the notification stamp the same instant with the
    same string exactly when its microseconds are zero: otherwise the health
    record keeps the fraction and the offset that the notification drops. *)
Theorem X12_stamps_agree_iff_whole_second (W : World) :
  health_timestamp W = Some (VStr (timestamp_of (utcnow W)))
  <-> microsecond (utcnow W) = 0%N.
Proof.
  unfold health_timestamp, health_check, ret. cbn [snd].
  change (dict_get (py "timestamp")
            [ (py "status", VStr (py "healthy"));
              (py "message", VStr (py "Telegram backend is running"));
              (py "timestamp", VStr (isoformat (utcnow W) ++ py " UTC")) ])
    with (Some (VStr (isoformat (utcnow W) ++ py " UTC"))).
  unfold isoformat, iso_fraction, timestamp_of.
  destruct (N.eqb_spec (microsecond (utcnow W)) 0) as [E | E].
  - split; [intros _; exact E | intros _]. now rewrite <- !app_assoc.
  - split; [| contradiction]. intros H. exfalso.
    apply (f_equal (fun o => match o with Some (VStr t) => t | _ => [] end)) in H.
    cbv beta iota in H. rewrite <- !app_assoc in H.
    apply app_inv_head in H. discriminate H.
Qed.

(** ** The diagnostic endpoints *)

Section DiagnosticFacts.

Variable J : Type.
Variable W : World.
Variable net : Net J.

(** X13.  [GET /test-dns] answers a failed lookup with a record, not with an
    error: for a [socket.gaierror] it returns status "error" with the text
    of the exception, after one ERROR record.  A lookup that succeeds gives
    status "success" with the address.  Only an exception of another class
    leaves the handler, as it is. *)
Theorem X13_test_dns_outcomes :
  match gethostbyname net telegram_host with
  | inr ip =>
      test_dns W net
      = ([Log INFO (py "DNS resolved: api.telegram.org -> " ++ ip)],
         inr [ (py "status", DStr (py "success")); (py "ip", DStr ip) ])
  | inl e =>
      if isinstance net e "socket.gaierror"
      then test_dns W net
           = ([Log ERROR (py "DNS resolution failed: " ++ str_exn W e)],
              inr (error_record W e))
      else test_dns W net = ([], inl e)
  end.
Proof.
  unfold test_dns, telegram_host.
  destruct (gethostbyname net (py "api.telegram.org")) as [e | ip]; cbn.
  - destruct (isinstance net e "socket.gaierror"); reflexivity.
  - reflexivity.
Qed.

(** X14.  The result of [GET /test-network]: an [httpx.HTTPError], from the
    request or from the parsing, gives the record with status "error" and
    the text of the exception; an exception of another class (a body that
    is not JSON) leaves the handler as it is; otherwise the record holds
    status "success" and the parsed body. *)
Theorem X14_test_network_result :
  snd (test_network W net)
  = match AsyncClient_get net ipify with
    | inl e =>
        if isinstance net e "httpx.HTTPError"
        then inr (error_record W e) else inl e
    | inr response =>
        match json response with
        | inl e =>
            if isinstance net e "httpx.HTTPError"
            then inr (error_record W e) else inl e
        | inr data =>
            inr [ (py "status", DStr (py "success")); (py "data", DJson data) ]
        end
    end.
Proof.
  unfold test_network, ipify.
  destruct (AsyncClient_get net (py "https://api.ipify.org?format=json"))
    as [e | [[e | data]]]; cbn.
  - destruct (isinstance net e "httpx.HTTPError"); reflexivity.
  - destruct (isinstance net e "httpx.HTTPError"); reflexivity.
  - reflexivity.
Qed.


End DiagnosticFacts.

(** X13 and X14 on concrete networks: a name that does not resolve, and a
    body that is not JSON. *)
Example test_dns_offline :
  test_dns ok_world offline
  = ([Log ERROR (py "DNS resolution failed: [Errno -2] Name or service not known")],
     inr [ (py "status", DStr (py "error"));
           (py "details", DStr (py "[Errno -2] Name or service not known")) ]).
Proof. reflexivity. Qed.

Example test_network_garbled :
  snd (test_network ok_world garbled)
  = inl (PyException "json.JSONDecodeError"
           (py "Expecting value: line 1 column 1 (char 0)")).
Proof. reflexivity. Qed.

Example test_network_online :
  test_network ok_world online
  = ([ AsyncClient_enter 30;
       Log INFO (py "Network test successful: {'ip': '203.0.113.7'}");
       AsyncClient_exit ],
     inr [ (py "status", DStr (py "success"));
           (py "data", DJson (py "{'ip': '203.0.113.7'}")) ]).
Proof. reflexivity. Qed.
